(** * httpcore/interfaces.py: the dispatcher, stream and pool-semaphore interfaces

    A shallow embedding of [httpcore/interfaces.py]: the [Protocol]
    enumeration, the [Dispatcher] base class with its [request]
    convenience method and its async context-manager protocol, and the
    stub classes [BaseReader], [BaseWriter] and [BasePoolSemaphore].

    Python code runs in a monad [M] that threads the interpreter's world
    (every mutable object lives there, so a [Request] is a reference and
    a mutation made through one alias is seen through every other),
    propagates exceptions, and records the calls that leave a method
    body: calls into the request model and calls dispatched through
    [self]. *)

From stdpp Require Import base option list strings gmap.

Set Default Proof Using "Type".

(** ** Python values, exceptions and outcomes *)

Definition bytes := list Byte.byte.

(** The exceptions that occur in this development; [OtherError] stands
    for any other exception class, by name. *)
Inductive exn : Type :=
| NotImplementedError
| ValueError
| AttributeError
| CancelledError
| OtherError (cls : string).

Definition exn_class (e : exn) : string :=
  match e with
  | NotImplementedError => "NotImplementedError"
  | ValueError => "ValueError"
  | AttributeError => "AttributeError"
  | CancelledError => "CancelledError"
  | OtherError cls => cls
  end.

(** Dynamically typed results of the methods annotated [-> None] or
    [-> bytes]: Python does not enforce the annotation, so the model
    keeps the value. *)
Inductive pyval : Type :=
| PyNone
| PyBool (b : bool)
| PyInt (n : Z)
| PyBytes (b : bytes)
| PyStr (s : string).

(** Python's truth value testing. *)
Definition truthy (v : pyval) : bool :=
  match v with
  | PyNone => false
  | PyBool b => b
  | PyInt n => negb (n =? 0)%Z
  | PyBytes b => negb (length b =? 0)
  | PyStr s => negb (String.length s =? 0)
  end.

Inductive outcome (A : Type) : Type :=
| Returned (a : A)
| Raised (e : exn).
Arguments Returned {A} a.
Arguments Raised {A} e.

Definition is_returned {A} (o : outcome A) : bool :=
  match o with Returned _ => true | Raised _ => false end.

(** [typing.Union[bytes, ...]]: the body of a request is a byte string
    or some other body the request model accepts. *)
Inductive RequestData_of (Other : Type) : Type :=
| DataBytes (b : bytes)
| DataOther (x : Other).
Arguments DataBytes {Other} b.
Arguments DataOther {Other} x.

(** [types.TracebackType]. *)
Inductive TracebackType : Type := Traceback (frames : list string).

(** ** The collaborators imported from [.config] and [.models]

    [interfaces.py] imports its value types and the [Request] class; the
    interfaces are verified against every implementation of them.
    [Request] is the type of references to request objects, whose
    contents live in the [World]. *)
Class Models : Type := {
  World : Type;
  URLTypes : Type;
  QueryParamTypes : Type;
  HeaderTypes : Type;
  OtherData : Type;
  SSLConfig : Type;
  TimeoutConfig : Type;
  Request : Type;
  Response : Type;
  (* Request(method, url, data=..., query_params=..., headers=...) *)
  Request_init :
    string → URLTypes → RequestData_of OtherData →
    option QueryParamTypes → option HeaderTypes →
    World → outcome Request * World;
  (* request.prepare() *)
  Request_prepare : Request → World → outcome pyval * World;
}.

Definition RequestData `{Models} : Type := RequestData_of OtherData.
Definition OptionalTimeout `{Models} : Type := option TimeoutConfig.

(** ** class Protocol(str, enum.Enum) *)

Inductive Protocol : Type :=
| HTTP_11
| HTTP_2.

(** The [str] value of a member. *)
Definition Protocol_value (p : Protocol) : string :=
  match p with
  | HTTP_11 => "HTTP/1.1"
  | HTTP_2 => "HTTP/2"
  end.


(** [list(Protocol)]: the members in definition order. *)
Definition Protocol_members : list Protocol := [HTTP_11; HTTP_2].

(** [Protocol(value)]: the enum's lookup by value, which raises
    [ValueError] when no member has that value. *)
Definition Protocol_call (value : string) : outcome Protocol :=
  match List.find (λ p, String.eqb (Protocol_value p) value) Protocol_members with
  | Some p => Returned p
  | None => Raised ValueError
  end.


(** [member == s]: [Protocol] mixes in [str], so a member compares with
    a string as its value does. *)
Definition Protocol_eq_str (p : Protocol) (s : string) : bool :=
  String.eqb (Protocol_value p) s.

(** ** Declared signatures *)




(** ** The monad of method bodies *)

Section Semantics.
Context `{Models}.

(** A method invoked through [self], resolved in the object's class. *)
Inductive method_call : Type :=
| CallPrepareRequest (request : Request)
| CallSend (request : Request) (stream : bool)
           (ssl : option SSLConfig) (timeout : option TimeoutConfig)
| CallClose.

(** The calls a run makes, in order. *)
Inductive event : Type :=
| EvRequest (method : string) (url : URLTypes) (data : RequestData)
            (query_params : option QueryParamTypes) (headers : option HeaderTypes)
| EvPrepare (request : Request)
| EvSelf (self : nat) (call : method_call).

Definition M (A : Type) : Type := World → outcome A * World * list event.

Definition run {A} (m : M A) (w : World) : outcome A * World * list event := m w.

Definition ret {A} (a : A) : M A := λ w, (Returned a, w, []).

Definition bind {A B} (m : M A) (k : A → M B) : M B :=
  λ w,
    match m w with
    | (Returned a, w1, t1) =>
        match k a w1 with
        | (o, w2, t2) => (o, w2, t1 ++ t2)
        end
    | (Raised e, w1, t1) => (Raised e, w1, t1)
    end.

(** [raise e] *)
Definition raise {A} (e : exn) : M A := λ w, (Raised e, w, []).

(** A call that leaves the module: its effect on the world is the
    callee's, and the call is recorded. *)
Definition extern {A} (ev : event) (f : World → outcome A * World) : M A :=
  λ w, match f w with (o, w1) => (o, w1, [ev]) end.

(** The body of an overriding method: opaque, nothing recorded. *)
Definition opaque {A} (f : World → outcome A * World) : M A :=
  λ w, match f w with (o, w1) => (o, w1, []) end.

Definition emit (ev : event) : M unit := λ w, (Returned (), w, [ev]).

(** [try: m except BaseException as e: ...]: the outcome of [m],
    caught. *)
Definition attempt {A} (m : M A) : M (outcome A) :=
  λ w, match m w with (o, w1, t1) => (Returned o, w1, t1) end.

(** Calling an [async def] function runs nothing: it returns a
    coroutine object, whose body runs when it is awaited. *)
Record Coroutine (A : Type) : Type := { resume : M A }.
Arguments resume {A} _.

Definition async_def {A} (body : M A) : M (Coroutine A) :=
  ret {| resume := body |}.

(** [await call] *)
Definition await {A} (call : M (Coroutine A)) : M A :=
  bind call resume.

End Semantics.

Arguments resume {_ A} _.

#[global] Instance M_ret `{Models} : MRet M := @ret _.
#[global] Instance M_bind `{Models} : MBind M := λ A B k m, bind m k.

(** ** class Dispatcher *)

Section DispatcherObjects.
Context `{Models}.

(** The methods a subclass of [Dispatcher] overrides; [None] inherits
    the base method. An overriding body is any behaviour on the
    world. *)
Record Overrides : Type := {
  o_prepare_request : option (Request → World → outcome pyval * World);
  o_send : option (Request → bool → option SSLConfig → option TimeoutConfig →
                   World → outcome Response * World);
  o_close : option (World → outcome pyval * World);
}.

(** A dispatcher object: its identity and its class. *)
Record DispatcherObj : Type := {
  obj_id : nat;
  obj_class : Overrides;
}.

(** The class [Dispatcher] itself: nothing overridden. *)
Definition base_class : Overrides :=
  {| o_prepare_request := None; o_send := None; o_close := None |}.

(** [sys.exc_info()] as [__aexit__] receives it. *)
Definition exc_info : Type := option string * option exn * option TracebackType.
Definition sys_exc_info (e : exn) : exc_info :=
  (Some (exn_class e), Some e, Some (Traceback [])).

(** How a block of statements completes when it raises nothing. *)
Inductive completion : Type :=
| Fallthrough
| ReturnStmt (v : pyval)
| BreakStmt
| ContinueStmt.

End DispatcherObjects.

Module Dispatcher.
Section Methods.
Context `{Models}.

(** [def prepare_request(self, request): request.prepare()] *)
Definition prepare_request (self : DispatcherObj) (request : Request) : M pyval :=
  extern (EvPrepare request) (Request_prepare request);;
  mret PyNone.

(** [async def send(self, request, stream, ssl, timeout):
     raise NotImplementedError()] *)
Definition send (self : DispatcherObj) (request : Request) (stream : bool)
    (ssl : option SSLConfig) (timeout : option TimeoutConfig)
    : M (Coroutine Response) :=
  async_def (raise NotImplementedError).

(** [async def close(self): pass] *)
Definition close (self : DispatcherObj) : M (Coroutine pyval) :=
  async_def (mret PyNone).

(** Attribute lookup on [self]: [type(self)] is searched first, so an
    overriding method shadows the base one. *)
Definition lookup_prepare_request (self : DispatcherObj) (request : Request) : M pyval :=
  match o_prepare_request (obj_class self) with
  | Some f => opaque (f request)
  | None => prepare_request self request
  end.

Definition lookup_send (self : DispatcherObj) (request : Request) (stream : bool)
    (ssl : option SSLConfig) (timeout : option TimeoutConfig)
    : M (Coroutine Response) :=
  match o_send (obj_class self) with
  | Some f => async_def (opaque (f request stream ssl timeout))
  | None => send self request stream ssl timeout
  end.

Definition lookup_close (self : DispatcherObj) : M (Coroutine pyval) :=
  match o_close (obj_class self) with
  | Some f => async_def (opaque f)
  | None => close self
  end.

(** [self.prepare_request(request)], [self.send(...)] and
    [self.close()]: the call is recorded, then the method found runs. *)
Definition self_prepare_request (self : DispatcherObj) (request : Request) : M pyval :=
  emit (EvSelf (obj_id self) (CallPrepareRequest request));;
  lookup_prepare_request self request.

Definition self_send (self : DispatcherObj) (request : Request) (stream : bool)
    (ssl : option SSLConfig) (timeout : option TimeoutConfig)
    : M (Coroutine Response) :=
  emit (EvSelf (obj_id self) (CallSend request stream ssl timeout));;
  lookup_send self request stream ssl timeout.

Definition self_close (self : DispatcherObj) : M (Coroutine pyval) :=
  emit (EvSelf (obj_id self) CallClose);;
  lookup_close self.

(** [async def request(self, method, url, *, data, query_params,
     headers, stream, ssl, timeout)], every parameter bound. *)
Definition request (self : DispatcherObj) (method : string) (url : URLTypes)
    (data : RequestData) (query_params : option QueryParamTypes)
    (headers : option HeaderTypes) (stream : bool)
    (ssl : option SSLConfig) (timeout : option TimeoutConfig)
    : M (Coroutine Response) :=
  async_def (
    request ← extern (EvRequest method url data query_params headers)
                     (Request_init method url data query_params headers);
    self_prepare_request self request;;
    response ← await (self_send self request stream ssl timeout);
    mret response).

(** The keyword-only parameters of [request] a caller may omit. *)
Record request_kwargs : Type := {
  kw_data : option RequestData;
  kw_query_params : option (option QueryParamTypes);
  kw_headers : option (option HeaderTypes);
  kw_stream : option bool;
  kw_ssl : option (option SSLConfig);
  kw_timeout : option (option TimeoutConfig);
}.

Definition no_kwargs : request_kwargs :=
  {| kw_data := None; kw_query_params := None; kw_headers := None;
     kw_stream := None; kw_ssl := None; kw_timeout := None |}.

(** [self.request(method, url, **kwargs)]: an omitted parameter takes
    the default of the signature:
    [data=b""], [query_params=None], [headers=None], [stream=False],
    [ssl=None], [timeout=None]. *)
Definition call_request (self : DispatcherObj) (method : string) (url : URLTypes)
    (kwargs : request_kwargs) : M (Coroutine Response) :=
  request self method url
    (default (DataBytes []) (kw_data kwargs))
    (default None (kw_query_params kwargs))
    (default None (kw_headers kwargs))
    (default false (kw_stream kwargs))
    (default None (kw_ssl kwargs))
    (default None (kw_timeout kwargs)).

(** [async def __aenter__(self): return self] *)
Definition aenter (self : DispatcherObj) : M (Coroutine DispatcherObj) :=
  async_def (mret self).

(** [async def __aexit__(self, exc_type=None, exc_value=None,
     traceback=None): await self.close()] *)
Definition aexit (self : DispatcherObj) (exc_type : option string)
    (exc_value : option exn) (traceback : option TracebackType)
    : M (Coroutine pyval) :=
  async_def (
    await (self_close self);;
    mret PyNone).

(** [async with manager as target: suite], as the language reference
    defines it:
    [value = await aenter(manager)], then the suite runs with the
    target bound to [value]; when the suite raises, the exception is
    re-raised unless [await aexit(manager, *sys.exc_info())] is true;
    on every other completion [await aexit(manager, None, None, None)]
    runs, outside the [try], and the completion stands. *)
Definition async_with (manager : DispatcherObj)
    (suite : DispatcherObj → M completion) : M completion :=
  value ← await (aenter manager);
  o ← attempt (suite value);
  match o with
  | Raised e =>
      let '(exc_type, exc_value, traceback) := sys_exc_info e in
      suppress ← await (aexit manager exc_type exc_value traceback);
      if truthy suppress then mret Fallthrough else raise e
  | Returned c =>
      await (aexit manager None None None);;
      mret c
  end.

End Methods.
End Dispatcher.

(** ** class BaseReader *)

Module BaseReader.
Section Methods.
Context `{Models}.

(** [async def read(self, n, timeout=None) -> bytes:
     raise NotImplementedError()] *)
Definition read (self : nat) (n : Z) (timeout : OptionalTimeout)
    : M (Coroutine pyval) :=
  async_def (raise NotImplementedError).

End Methods.
End BaseReader.

(** ** class BaseWriter *)

Module BaseWriter.
Section Methods.
Context `{Models}.

(** [def write_no_block(self, data) -> None:
     raise NotImplementedError()] *)
Definition write_no_block (self : nat) (data : bytes) : M pyval :=
  raise NotImplementedError.

(** [async def write(self, data, timeout=None) -> None:
     raise NotImplementedError()] *)
Definition write (self : nat) (data : bytes) (timeout : OptionalTimeout)
    : M (Coroutine pyval) :=
  async_def (raise NotImplementedError).

(** [async def close(self) -> None: raise NotImplementedError()] *)
Definition close (self : nat) : M (Coroutine pyval) :=
  async_def (raise NotImplementedError).


(** A writer class: [BaseWriter] or a subclass, which may override
    [write_no_block] with any behaviour on the world. *)
Record WriterClass : Type := {
  w_write_no_block : option (bytes → World → outcome pyval * World);
}.

Definition base_writer : WriterClass := {| w_write_no_block := None |}.



End Methods.
End BaseWriter.

(** ** class BasePoolSemaphore *)

Module BasePoolSemaphore.
Section Methods.
Context `{Models}.

(** [async def acquire(self) -> None: raise NotImplementedError()] *)
Definition acquire (self : nat) : M (Coroutine pyval) :=
  async_def (raise NotImplementedError).

(** [def release(self) -> None: raise NotImplementedError()] *)
Definition release (self : nat) : M pyval :=
  raise NotImplementedError.

End Methods.
End BasePoolSemaphore.

(** ** The concurrency gate *)

Module Gate.

(** Modelled from the spec: the pool semaphore that implements
    [BasePoolSemaphore] (the Concurrency Gate) is missing from the
    sources at hand, which hold only the stub interface. The spec's
    gate is a counting permit gate of capacity N: constructing it with
    capacity 0 fails; [acquire] takes a permit or, when the N permits
    are out, suspends the caller, who is resumed in FIFO order as
    permits are released; a suspended [acquire] may time out;
    [release] does not suspend, and a release with no permit out is a
    programming error that leaves the gate as it was. *)
Record t : Type := {
  capacity : nat;
  outstanding : nat;
  waiters : list nat;
}.

(** Modelled from the spec: construction, which rejects capacity 0. *)
Definition new (N : nat) : outcome t :=
  if N =? 0 then Raised ValueError
  else Returned {| capacity := N; outstanding := 0; waiters := [] |}.

(** What the gate's user observes of each operation. *)
Inductive obs : Type :=
| Granted (task : nat)
| Suspended (task : nat)
| Released (resumed : option nat)
| DoubleRelease
| TimedOut (task : nat).

(** Modelled from the spec: [acquire()] by [task]. *)
Definition acquire (task : nat) (g : t) : obs * t :=
  if outstanding g <? capacity g
  then (Granted task,
        {| capacity := capacity g; outstanding := S (outstanding g);
           waiters := waiters g |})
  else (Suspended task,
        {| capacity := capacity g; outstanding := outstanding g;
           waiters := waiters g ++ [task] |}).

(** Modelled from the spec: [release()]. The permit goes to the
    longest-suspended caller when there is one, whose [acquire] then
    succeeds. *)
Definition release (g : t) : obs * t :=
  match outstanding g with
  | 0 => (DoubleRelease, g)
  | S n =>
      match waiters g with
      | [] =>
          (Released None,
           {| capacity := capacity g; outstanding := n; waiters := [] |})
      | task :: rest =>
          (Released (Some task),
           {| capacity := capacity g; outstanding := S n; waiters := rest |})
      end
  end.

(** Modelled from the spec: the acquiring operation of a suspended
    caller fails partway (its timeout fires): the caller leaves the
    queue without a permit. *)
Fixpoint remove_first (task : nat) (l : list nat) : list nat :=
  match l with
  | [] => []
  | x :: rest => if x =? task then rest else x :: remove_first task rest
  end.

Definition timeout (task : nat) (g : t) : obs * t :=
  (TimedOut task,
   {| capacity := capacity g; outstanding := outstanding g;
      waiters := remove_first task (waiters g) |}).

Inductive op : Type :=
| Acquire (task : nat)
| Release
| Timeout (task : nat).

Definition step (o : op) (g : t) : obs * t :=
  match o with
  | Acquire task => acquire task g
  | Release => release g
  | Timeout task => timeout task g
  end.

(** A sequence of operations, with what each showed. *)
Fixpoint exec (ops : list op) (g : t) : list obs * t :=
  match ops with
  | [] => ([], g)
  | o :: rest =>
      let '(b, g1) := step o g in
      let '(bs, g2) := exec rest g1 in
      (b :: bs, g2)
  end.

(** The acquires that succeeded: at once, or on being resumed by a
    release. *)
Definition acquired (b : obs) : nat :=
  match b with
  | Granted _ => 1
  | Released (Some _) => 1
  | _ => 0
  end.

(** The releases that gave a permit back. *)
Definition released (b : obs) : nat :=
  match b with
  | Released _ => 1
  | _ => 0
  end.

Definition count (f : obs → nat) (bs : list obs) : nat :=
  foldr (λ b n, f b + n) 0 bs.

(** A gate state that a sequence of operations on a new gate of
    capacity [N] leads to. *)
Definition reachable (N : nat) (g : t) : Prop :=
  ∃ g0 ops, new N = Returned g0 ∧ (exec ops g0).2 = g.

(** Modelled from the spec: the callers of the gate. [release()] takes
    no argument, so the gate is not told who releases; who holds a
    permit is followed beside the gate, from what it granted to whom
    and from who released. *)
Inductive call : Type :=
| AcquireBy (task : nat)
| ReleaseBy (task : nat)
| TimeoutOf (task : nat).






End Gate.

(** ** A test double

    A request model and a dispatcher subclass small enough to run: the
    requests live in a heap keyed by reference, [prepare] marks the
    request in place, and the mock [send] answers from the heap entry it
    is handed. *)

Module Mock.

Record request_obj : Type := {
  req_method : string;
  req_url : string;
  req_body : bytes;
  req_headers : list (string * string);
  req_prepared : bool;
}.

Record world : Type := {
  heap : gmap nat request_obj;
  next_ref : nat;
  sent : list nat;
  closed : bool;
  written : bytes;
}.

Definition empty_world : world :=
  {| heap := ∅; next_ref := 0; sent := []; closed := false; written := [] |}.

Definition init (method url : string) (data : RequestData_of bytes)
    (query_params : option string) (headers : option (list (string * string)))
    (w : world) : outcome nat * world :=
  if String.eqb method "" then (Raised ValueError, w)
  else
    let o := {| req_method := method;
                req_url := url +:+ default "" query_params;
                req_body := match data with DataBytes b => b | DataOther b => b end;
                req_headers := default [] headers;
                req_prepared := false |} in
    (Returned (next_ref w),
     {| heap := <[next_ref w := o]> (heap w); next_ref := S (next_ref w);
        sent := sent w; closed := closed w; written := written w |}).

Definition prepare (r : nat) (w : world) : outcome pyval * world :=
  match heap w !! r with
  | Some o =>
      let o' := {| req_method := req_method o; req_url := req_url o;
                   req_body := req_body o;
                   req_headers := ("host", req_url o) :: req_headers o;
                   req_prepared := true |} in
      (Returned (PyBool true),
       {| heap := <[r := o']> (heap w); next_ref := next_ref w;
          sent := sent w; closed := closed w; written := written w |})
  | None => (Raised (OtherError "ReferenceError"), w)
  end.

#[export] Instance models : Models := {|
  World := world;
  URLTypes := string;
  QueryParamTypes := string;
  HeaderTypes := list (string * string);
  OtherData := bytes;
  SSLConfig := bool;
  TimeoutConfig := nat;
  Request := nat;
  Response := nat * bytes;
  Request_init := init;
  Request_prepare := prepare;
|}.

(** The mock [send]: 200 with the body echoed when the request it is
    handed was prepared, an error otherwise. *)
Definition mock_send (r : nat) (stream : bool) (ssl : option bool)
    (timeout : option nat) (w : world) : outcome (nat * bytes) * world :=
  match heap w !! r with
  | Some o =>
      if req_prepared o
      then (Returned (200, req_body o),
            {| heap := heap w; next_ref := next_ref w;
               sent := r :: sent w; closed := closed w; written := written w |})
      else (Raised (OtherError "NotPrepared"), w)
  | None => (Raised (OtherError "ReferenceError"), w)
  end.

Definition mock_close (w : world) : outcome pyval * world :=
  (Returned (PyInt 1),
   {| heap := heap w; next_ref := next_ref w; sent := sent w; closed := true;
      written := written w |}).

Definition MockDispatcher : Overrides :=
  {| o_prepare_request := None;
     o_send := Some mock_send;
     o_close := Some mock_close |}.

Definition mock : DispatcherObj := {| obj_id := 7; obj_class := MockDispatcher |}.

(** A plain [Dispatcher()]. *)
Definition plain : DispatcherObj := {| obj_id := 1; obj_class := base_class |}.

Definition hello : bytes := [Byte.x68; Byte.x69].



(** A suite for [async with]: a request with an empty method, which the
    request model refuses. *)
Definition failing_suite (d : DispatcherObj) : M completion :=
  await (Dispatcher.call_request d "" "http://a" Dispatcher.no_kwargs);;
  mret Fallthrough.

End Mock.

(** * Properties *)

(** ** The monad *)

Ltac run_unfold :=
  unfold run, await, async_def, mbind, M_bind, mret, M_ret,
    bind, ret, raise, extern, opaque, emit, attempt in *;
  simpl in *.

Section MonadLemmas.
Context `{Models}.

Lemma run_ret {A} (a : A) w : run (mret a) w = (Returned a, w, []).
Proof. reflexivity. Qed.

Lemma run_raise {A} e w : run (raise (A := A) e) w = (Raised e, w, []).
Proof. reflexivity. Qed.

Lemma run_bind {A B} (m : M A) (k : A → M B) w :
  run (m ≫= k) w =
    match run m w with
    | (Returned a, w1, t1) =>
        match run (k a) w1 with (o, w2, t2) => (o, w2, t1 ++ t2) end
    | (Raised e, w1, t1) => (Raised e, w1, t1)
    end.
Proof. reflexivity. Qed.

(** Awaiting the call of an [async def] function runs its body. *)
Lemma run_await_async_def {A} (body : M A) w :
  run (await (async_def body)) w = run body w.
Proof.
  run_unfold. destruct (body w) as [[o w1] t1]. by destruct o.
Qed.

(** The call alone runs nothing. *)
Lemma run_async_def {A} (body : M A) w :
  run (async_def body) w = (Returned {| resume := body |}, w, []).
Proof. reflexivity. Qed.

End MonadLemmas.

(** ** Dispatcher.request *)

Section RequestProperties.
Context `{Models}.

(** The recorded call comes first, then whatever the method found
    does. *)
Lemma run_self_prepare_request self r w :
  run (Dispatcher.self_prepare_request self r) w =
    match run (Dispatcher.lookup_prepare_request self r) w with
    | (o, w1, t1) => (o, w1, EvSelf (obj_id self) (CallPrepareRequest r) :: t1)
    end.
Proof.
  unfold Dispatcher.self_prepare_request. rewrite run_bind. run_unfold.
  by destruct (Dispatcher.lookup_prepare_request self r w) as [[o w1] t1].
Qed.

Lemma run_await_self_send self r stream ssl timeout w :
  run (await (Dispatcher.self_send self r stream ssl timeout)) w =
    match run (await (Dispatcher.lookup_send self r stream ssl timeout)) w with
    | (o, w1, t1) =>
        (o, w1, EvSelf (obj_id self) (CallSend r stream ssl timeout) :: t1)
    end.
Proof.
  unfold Dispatcher.self_send. run_unfold.
  destruct (Dispatcher.lookup_send self r stream ssl timeout w) as [[o w1] t1].
  destruct o as [c|e]; [|done].
  by destruct (resume c w1) as [[o2 w2] t2].
Qed.

Lemma run_await_self_close self w :
  run (await (Dispatcher.self_close self)) w =
    match run (await (Dispatcher.lookup_close self)) w with
    | (o, w1, t1) => (o, w1, EvSelf (obj_id self) CallClose :: t1)
    end.
Proof.
  unfold Dispatcher.self_close. run_unfold.
  destruct (Dispatcher.lookup_close self w) as [[o w1] t1].
  destruct o as [c|e]; [|done].
  by destruct (resume c w1) as [[o2 w2] t2].
Qed.

(** The whole run of [request], in terms of its three steps. *)
Lemma run_await_request self method url data query_params headers
    stream ssl timeout w :
  run (await (Dispatcher.request self method url data query_params headers
                stream ssl timeout)) w =
    match Request_init method url data query_params headers w with
    | (Raised e, w1) =>
        (Raised e, w1, [EvRequest method url data query_params headers])
    | (Returned r, w1) =>
        match run (Dispatcher.lookup_prepare_request self r) w1 with
        | (Raised e, w2, t2) =>
            (Raised e, w2,
             EvRequest method url data query_params headers
               :: EvSelf (obj_id self) (CallPrepareRequest r) :: t2)
        | (Returned _, w2, t2) =>
            match run (await (Dispatcher.lookup_send self r stream ssl timeout)) w2 with
            | (o, w3, t3) =>
                (o, w3,
                 EvRequest method url data query_params headers
                   :: EvSelf (obj_id self) (CallPrepareRequest r) :: t2
                   ++ EvSelf (obj_id self) (CallSend r stream ssl timeout) :: t3)
            end
        end
    end.
Proof.
  unfold Dispatcher.request, Dispatcher.self_prepare_request,
    Dispatcher.self_send.
  run_unfold.
  destruct (Request_init method url data query_params headers w) as [[r|e] w1];
    [|done].
  destruct (Dispatcher.lookup_prepare_request self r w1) as [[[v|e] w2] t2];
    [|done].
  destruct (Dispatcher.lookup_send self r stream ssl timeout w2)
    as [[[c|e] w3] t3]; simpl; [|by rewrite ?app_nil_r].
  destruct (resume c w3) as [[[resp|e] w4] t4]; simpl;
    by rewrite ?app_nil_r.
Qed.

End RequestProperties.

Section RequestClaims.
Context `{Models}.

(** C1. [Dispatcher.request] constructs a [Request] from [method],
    [url], [data], [query_params] and [headers], then calls
    [prepare_request] on it, then calls [send] with that same request
    and the given [stream], [ssl] and [timeout], and its outcome is
    the outcome of [send]: the response [send] returns, or the
    exception it raises. Nothing else is called and the world changes
    only through these three calls. A step that raises ends the
    method there with that exception: the later steps do not run. *)
Theorem request_builds_prepares_sends self method url data query_params headers
    stream ssl timeout w :
  let built := EvRequest method url data query_params headers in
  let prepared r := EvSelf (obj_id self) (CallPrepareRequest r) in
  let sent r := EvSelf (obj_id self) (CallSend r stream ssl timeout) in
  let it := run (await (Dispatcher.request self method url data query_params
                          headers stream ssl timeout)) w in
  (∀ e w1,
      Request_init method url data query_params headers w = (Raised e, w1) →
      it = (Raised e, w1, [built]))
  ∧ (∀ r w1 e w2 t2,
      Request_init method url data query_params headers w = (Returned r, w1) →
      run (Dispatcher.lookup_prepare_request self r) w1 = (Raised e, w2, t2) →
      it = (Raised e, w2, built :: prepared r :: t2))
  ∧ (∀ r w1 v w2 t2 o w3 t3,
      Request_init method url data query_params headers w = (Returned r, w1) →
      run (Dispatcher.lookup_prepare_request self r) w1 = (Returned v, w2, t2) →
      run (await (Dispatcher.lookup_send self r stream ssl timeout)) w2 = (o, w3, t3) →
      it = (o, w3, built :: prepared r :: t2 ++ sent r :: t3)).
Proof.
  intros built prepared sent it. subst it.
  rewrite run_await_request.
  split; [|split].
  - intros e w1 ->. done.
  - intros r w1 e w2 t2 -> ->. done.
  - intros r w1 v w2 t2 o w3 t3 -> -> ->. done.
Qed.

(** C7. The base [prepare_request(request)] calls [request.prepare()]
    on that request and does nothing else: the world is changed by
    [prepare] alone, an exception of [prepare] propagates, and its
    return value is dropped for [None]. *)
Theorem prepare_request_delegates self request w :
  run (Dispatcher.prepare_request self request) w =
    match Request_prepare request w with
    | (Returned _, w1) => (Returned PyNone, w1, [EvPrepare request])
    | (Raised e, w1) => (Raised e, w1, [EvPrepare request])
    end.
Proof.
  unfold Dispatcher.prepare_request. run_unfold.
  by destruct (Request_prepare request w) as [[v|e] w1].
Qed.

(** C9. A call of [request] that omits every optional argument builds
    the [Request] with [data = b""], no query parameters and no
    headers, and calls [send] with [stream = False], [ssl = None] and
    [timeout = None]. *)
Theorem request_defaults self method url w :
  let it := run (await (Dispatcher.call_request self method url
                          Dispatcher.no_kwargs)) w in
  it = run (await (Dispatcher.request self method url (DataBytes []) None None
                     false None None)) w
  ∧ head it.2 = Some (EvRequest method url (DataBytes []) None None)
  ∧ (∀ id r stream ssl timeout,
       EvSelf id (CallSend r stream ssl timeout) ∈ it.2 →
       stream = false ∧ ssl = None ∧ timeout = None)
  ∧ (∀ r w1 v w2 t2,
       Request_init method url (DataBytes []) None None w = (Returned r, w1) →
       run (Dispatcher.lookup_prepare_request self r) w1 = (Returned v, w2, t2) →
       EvSelf (obj_id self) (CallSend r false None None) ∈ it.2).
Proof.
  intros it. subst it.
  unfold Dispatcher.call_request, Dispatcher.no_kwargs; simpl.
  split; [done|].
  rewrite run_await_request.
  destruct (Request_init method url (DataBytes []) None None w) as [[r|e] w1].
  2: { split; [done|]. split; [|done].
       intros id r stream ssl timeout Hin; simpl in Hin.
       apply list_elem_of_singleton in Hin. discriminate. }
  assert (Hprep : ∀ o w2 t2 id r' stream ssl timeout,
    run (Dispatcher.lookup_prepare_request self r) w1 = (o, w2, t2) →
    EvSelf id (CallSend r' stream ssl timeout) ∉ t2).
  { intros o w2 t2 id r' stream ssl timeout Hrun Hin.
    unfold Dispatcher.lookup_prepare_request, Dispatcher.prepare_request in Hrun.
    run_unfold.
    destruct (o_prepare_request (obj_class self)) as [f|].
    - destruct (f r w1) as [o' w']. simplify_eq. by apply not_elem_of_nil in Hin.
    - destruct (Request_prepare r w1) as [[v|e] w']; simplify_eq;
        apply list_elem_of_singleton in Hin; discriminate. }
  assert (Hsend : ∀ o w3 t3 w2,
    run (await (Dispatcher.lookup_send self r false None None)) w2 = (o, w3, t3) →
    t3 = []).
  { intros o w3 t3 w2 Hrun.
    unfold Dispatcher.lookup_send, Dispatcher.send in Hrun. run_unfold.
    destruct (o_send (obj_class self)) as [f|]; simpl in Hrun.
    - destruct (f r false None None w2) as [o' w']. by simplify_eq.
    - by simplify_eq. }
  destruct (run (Dispatcher.lookup_prepare_request self r) w1)
    as [[[v|e] w2] t2] eqn:Eprep.
  - destruct (run (await (Dispatcher.lookup_send self r false None None)) w2)
      as [[o w3] t3] eqn:Esend.
    split; [done|]. simpl. split.
    + intros id r' stream ssl timeout Hin.
      apply Hsend in Esend as ->.
      rewrite !elem_of_cons, elem_of_app, elem_of_cons in Hin.
      destruct Hin as [Hin|[Hin|[Hin|[Hin|Hin]]]]; try discriminate.
      * by eapply Hprep in Hin.
      * by simplify_eq.
      * by apply not_elem_of_nil in Hin.
    + intros r' w1' v' w2' t2' ? ?. simplify_eq.
      rewrite !elem_of_cons, elem_of_app, elem_of_cons. auto.
  - split; [done|]. simpl. split.
    + intros id r' stream ssl timeout Hin.
      rewrite !elem_of_cons in Hin.
      destruct Hin as [Hin|[Hin|Hin]]; try discriminate.
      by eapply Hprep in Hin.
    + intros r' w1' v' w2' t2' ? ?. simplify_eq. congruence.
Qed.

End RequestClaims.

(** ** The dispatcher as a scoped resource *)

Section ScopeProperties.
Context `{Models}.

(** [await self.__aenter__()] *)
Lemma run_await_aenter (self : DispatcherObj) w :
  run (await (Dispatcher.aenter self)) w = (Returned self, w, []).
Proof. reflexivity. Qed.

(** [await self.__aexit__(...)]: the call of [close], and [None]. *)
Lemma run_await_aexit self exc_type exc_value traceback w :
  run (await (Dispatcher.aexit self exc_type exc_value traceback)) w =
    match run (await (Dispatcher.lookup_close self)) w with
    | (Returned _, w1, t1) => (Returned PyNone, w1, EvSelf (obj_id self) CallClose :: t1)
    | (Raised e, w1, t1) => (Raised e, w1, EvSelf (obj_id self) CallClose :: t1)
    end.
Proof.
  unfold Dispatcher.aexit. rewrite run_await_async_def.
  rewrite run_bind, run_await_self_close.
  destruct (run (await (Dispatcher.lookup_close self)) w) as [[[v|e] w1] t1];
    [|done].
  rewrite run_ret. by rewrite app_nil_r.
Qed.

(** The whole run of the scoped statement, in terms of the suite and
    of the [close] the object's class provides. *)
Lemma run_async_with self suite w :
  run (Dispatcher.async_with self suite) w =
    match run (suite self) w with
    | (o, w1, t1) =>
        match run (await (Dispatcher.lookup_close self)) w1 with
        | (Returned _, w2, t2) => (o, w2, t1 ++ EvSelf (obj_id self) CallClose :: t2)
        | (Raised e, w2, t2) => (Raised e, w2, t1 ++ EvSelf (obj_id self) CallClose :: t2)
        end
    end.
Proof.
  unfold Dispatcher.async_with, Dispatcher.aenter, Dispatcher.aexit,
    Dispatcher.self_close, sys_exc_info.
  run_unfold.
  destruct (suite self w) as [[[c|e] w1] t1]; simpl.
  - destruct (Dispatcher.lookup_close self w1) as [[[co|e] w2] t2]; simpl;
      [|by rewrite ?app_nil_r].
    destruct (resume co w2) as [[[v|e] w3] t3]; simpl; by rewrite ?app_nil_r.
  - destruct (Dispatcher.lookup_close self w1) as [[[co|e'] w2] t2]; simpl;
      [|by rewrite ?app_nil_r].
    destruct (resume co w2) as [[[v|e'] w3] t3]; simpl; by rewrite ?app_nil_r.
Qed.

End ScopeProperties.

Section ScopeClaims.
Context `{Models}.

(** C2. Used in [async with], a dispatcher is entered by returning the
    dispatcher object itself, to which the suite's target is bound,
    and on leaving, [close()] is called on it once, after the suite,
    however the suite ended: by falling through, by [return], [break]
    or [continue], or by raising. The statement then ends as the
    suite did, unless [close] itself raised. *)
Theorem scope_enters_self_and_closes self suite w o w1 t1 :
  run (suite self) w = (o, w1, t1) →
  run (await (Dispatcher.aenter self)) w = (Returned self, w, [])
  ∧ ∃ o' w2 t2 o'',
      run (await (Dispatcher.lookup_close self)) w1 = (o', w2, t2)
      ∧ run (Dispatcher.async_with self suite) w =
          (o'', w2, t1 ++ EvSelf (obj_id self) CallClose :: t2)
      ∧ (∀ v, o' = Returned v → o'' = o)
      ∧ (∀ e, o' = Raised e → o'' = Raised e).
Proof.
  intros Hsuite. split; [done|].
  rewrite run_async_with, Hsuite.
  destruct (run (await (Dispatcher.lookup_close self)) w1) as [[[v|e] w2] t2].
  - exists (Returned v), w2, t2, o.
    split; [done|]. split; [done|]. split; [done|]. intros e ?. discriminate.
  - exists (Raised e), w2, t2, (Raised e).
    split; [done|]. split; [done|]. split; [|congruence].
    intros v ?. discriminate.
Qed.

(** C10. The base [close()] returns [None], leaves the world as it
    was and calls nothing. [__aexit__] does the same whatever
    exception information it is given, and what it returns is never
    true; so when the suite of an [async with] on a dispatcher raises,
    the statement raises: the exception is never swallowed. With the
    base [close], it is the suite's own exception, in the world the
    suite left. *)
Theorem base_close_noop_and_exit_never_suppresses (self : DispatcherObj) :
  (∀ w, run (await (Dispatcher.close self)) w = (Returned PyNone, w, []))
  ∧ (∀ exc_type exc_value traceback exc_type' exc_value' traceback' w,
       run (await (Dispatcher.aexit self exc_type exc_value traceback)) w =
       run (await (Dispatcher.aexit self exc_type' exc_value' traceback')) w)
  ∧ (∀ exc_type exc_value traceback w v w1 t1,
       run (await (Dispatcher.aexit self exc_type exc_value traceback)) w =
         (Returned v, w1, t1) →
       v = PyNone ∧ truthy v = false)
  ∧ (∀ suite w e w1 t1,
       run (suite self) w = (Raised e, w1, t1) →
       ∃ e' w2 t2, run (Dispatcher.async_with self suite) w = (Raised e', w2, t2))
  ∧ (∀ suite w e w1 t1,
       o_close (obj_class self) = None →
       run (suite self) w = (Raised e, w1, t1) →
       run (Dispatcher.async_with self suite) w =
         (Raised e, w1, t1 ++ [EvSelf (obj_id self) CallClose])).
Proof.
  split; [done|]. split; [done|]. split; [|split].
  - intros exc_type exc_value traceback w v w1 t1.
    rewrite run_await_aexit.
    destruct (run (await (Dispatcher.lookup_close self)) w) as [[[v'|e] w2] t2];
      intros ?; by simplify_eq.
  - intros suite w e w1 t1 Hsuite.
    rewrite run_async_with, Hsuite.
    destruct (run (await (Dispatcher.lookup_close self)) w1) as [[[v|e'] w2] t2];
      eauto.
  - intros suite w e w1 t1 Hbase Hsuite.
    rewrite run_async_with, Hsuite.
    unfold Dispatcher.lookup_close. by rewrite Hbase.
Qed.

End ScopeClaims.

(** ** The stubs *)

Section StubClaims.
Context `{Models}.

(** C6. The base interfaces are stubs: [Dispatcher.send],
    [BaseReader.read], [BaseWriter.write], [BaseWriter.write_no_block],
    [BaseWriter.close], [BasePoolSemaphore.acquire] and
    [BasePoolSemaphore.release] raise [NotImplementedError] on every
    input, having done nothing; none returns a value. The [async def]
    ones raise when their call is awaited. *)
Theorem stubs_raise_not_implemented (w : World) :
  (∀ self request stream ssl timeout,
      run (await (Dispatcher.send self request stream ssl timeout)) w =
        (Raised NotImplementedError, w, []))
  ∧ (∀ self n timeout,
      run (await (BaseReader.read self n timeout)) w =
        (Raised NotImplementedError, w, []))
  ∧ (∀ self data timeout,
      run (await (BaseWriter.write self data timeout)) w =
        (Raised NotImplementedError, w, []))
  ∧ (∀ self data,
      run (BaseWriter.write_no_block self data) w =
        (Raised NotImplementedError, w, []))
  ∧ (∀ self,
      run (await (BaseWriter.close self)) w = (Raised NotImplementedError, w, []))
  ∧ (∀ self,
      run (await (BasePoolSemaphore.acquire self)) w =
        (Raised NotImplementedError, w, []))
  ∧ (∀ self,
      run (BasePoolSemaphore.release self) w = (Raised NotImplementedError, w, [])).
Proof. repeat split. Qed.


End StubClaims.

(** ** Protocol *)

Section ProtocolProperties.

Lemma Protocol_call_value p : Protocol_call (Protocol_value p) = Returned p.
Proof. by destruct p. Qed.

Lemma Protocol_call_inv s p : Protocol_call s = Returned p → Protocol_value p = s.
Proof.
  cbv [Protocol_call Protocol_members find Protocol_value].
  destruct (String.eqb_spec "HTTP/1.1" s) as [<-|_]; [by intros [= <-]|].
  destruct (String.eqb_spec "HTTP/2" s) as [<-|_]; [by intros [= <-]|].
  discriminate.
Qed.




End ProtocolProperties.

(** ** The gate *)

Section GateProperties.

Lemma Gate_new_inv N g0 :
  Gate.new N = Returned g0 →
  0 < N ∧ g0 = {| Gate.capacity := N; Gate.outstanding := 0; Gate.waiters := [] |}.
Proof.
  unfold Gate.new. destruct (Nat.eqb_spec N 0); [discriminate|].
  intros [= <-]. split; [lia|done].
Qed.

Lemma Gate_step_capacity o g : Gate.capacity (Gate.step o g).2 = Gate.capacity g.
Proof.
  destruct o; simpl; unfold Gate.acquire, Gate.release; [|  |done].
  - by destruct (_ <? _).
  - destruct (Gate.outstanding g); [done|]. by destruct (Gate.waiters g).
Qed.

(** One operation keeps the permits out within the capacity. *)
Lemma Gate_step_bounded o g :
  Gate.outstanding g ≤ Gate.capacity g →
  Gate.outstanding (Gate.step o g).2 ≤ Gate.capacity g.
Proof.
  intros Hle. destruct o; simpl; unfold Gate.acquire, Gate.release; [| |done].
  - destruct (Nat.ltb_spec (Gate.outstanding g) (Gate.capacity g)); simpl; lia.
  - destruct (Gate.outstanding g) eqn:E; [simpl; lia|].
    destruct (Gate.waiters g); simpl; lia.
Qed.

(** One operation keeps the books: a permit more is out for each
    acquire that succeeded, a permit less for each release. *)
Lemma Gate_step_balance o g :
  Gate.acquired (Gate.step o g).1 + Gate.outstanding g =
  Gate.released (Gate.step o g).1 + Gate.outstanding (Gate.step o g).2.
Proof.
  destruct o; simpl; unfold Gate.acquire, Gate.release; [| |done].
  - destruct (_ <? _); simpl; lia.
  - destruct (Gate.outstanding g) eqn:E; [simpl; lia|].
    destruct (Gate.waiters g); simpl; lia.
Qed.

Lemma Gate_exec_invariant ops g :
  Gate.outstanding g ≤ Gate.capacity g →
  Gate.capacity (Gate.exec ops g).2 = Gate.capacity g
  ∧ Gate.outstanding (Gate.exec ops g).2 ≤ Gate.capacity g
  ∧ Gate.count Gate.acquired (Gate.exec ops g).1 + Gate.outstanding g =
    Gate.count Gate.released (Gate.exec ops g).1 + Gate.outstanding (Gate.exec ops g).2.
Proof.
  revert g. induction ops as [|o ops IH]; intros g Hle; simpl; [done|].
  pose proof (Gate_step_capacity o g) as Hcap.
  pose proof (Gate_step_bounded o g Hle) as Hb.
  pose proof (Gate_step_balance o g) as Hbal.
  destruct (Gate.step o g) as [b g1]; simpl in *.
  destruct (IH g1) as (Hc & Ho & Hcount); [lia|].
  destruct (Gate.exec ops g1) as [bs g2]; simpl in *.
  split; [congruence|]. split; [lia|]. lia.
Qed.

Lemma Gate_exec_app ops1 ops2 g :
  (Gate.exec (ops1 ++ ops2) g).2 = (Gate.exec ops2 (Gate.exec ops1 g).2).2.
Proof.
  revert g. induction ops1 as [|o ops1 IH]; intros g; simpl; [done|].
  destruct (Gate.step o g) as [b g1]. specialize (IH g1).
  destruct (Gate.exec (ops1 ++ ops2) g1) as [bs g2].
  destruct (Gate.exec ops1 g1) as [bs1 g3]. simpl in *.
  by destruct (Gate.exec ops2 g3).
Qed.

Lemma Gate_reachable_step N g o :
  Gate.reachable N g → Gate.reachable N (Gate.step o g).2.
Proof.
  intros (g0 & ops & Hnew & <-). exists g0, (ops ++ [o]). split; [done|].
  rewrite Gate_exec_app. simpl.
  destruct (Gate.step o (Gate.exec ops g0).2) as [b g1]. done.
Qed.


(** C3. On a gate made with capacity [N], after any sequence of
    acquires, releases and timed-out acquires, and after any part of
    it, the permits out are the acquires that succeeded less the
    releases that gave one back, and they are at most [N]. *)
Theorem outstanding_never_exceeds_capacity N g0 ops k :
  Gate.new N = Returned g0 →
  let bs := (Gate.exec (take k ops) g0).1 in
  let g := (Gate.exec (take k ops) g0).2 in
  Gate.outstanding g = Gate.count Gate.acquired bs - Gate.count Gate.released bs
  ∧ Gate.count Gate.released bs ≤ Gate.count Gate.acquired bs
  ∧ Gate.outstanding g ≤ N.
Proof.
  intros Hnew bs g. subst bs g.
  apply Gate_new_inv in Hnew as [HN ->].
  destruct (Gate_exec_invariant (take k ops)
              {| Gate.capacity := N; Gate.outstanding := 0; Gate.waiters := [] |})
    as (Hc & Ho & Hcount); simpl; [lia|].
  simpl in *. lia.
Qed.

End GateProperties.

Section GateCallers.







End GateCallers.

Section GateClaims.
Context `{Models}.


End GateClaims.


(** ** Further properties of the dispatcher *)

Section DispatcherFurther.
Context `{Models}.

(** The base [prepare_request], run. *)
Lemma run_base_prepare_request self r w :
  run (Dispatcher.prepare_request self r) w =
    match Request_prepare r w with
    | (Returned _, w1) => (Returned PyNone, w1, [EvPrepare r])
    | (Raised e, w1) => (Raised e, w1, [EvPrepare r])
    end.
Proof.
  unfold Dispatcher.prepare_request. run_unfold.
  by destruct (Request_prepare r w) as [[v|e] w1].
Qed.

(** X1. On a dispatcher class that overrides [send] and inherits
    [prepare_request], the overriding [send] is handed the reference the
    constructor returned and runs in the world [request.prepare()]
    left: it sees the request prepared. It does not run at all when
    construction or [prepare] raises. *)
Theorem send_sees_the_prepared_request self f method url data query_params headers
    stream ssl timeout w :
  o_prepare_request (obj_class self) = None →
  o_send (obj_class self) = Some f →
  run (await (Dispatcher.request self method url data query_params headers
                stream ssl timeout)) w =
    match Request_init method url data query_params headers w with
    | (Raised e, w1) =>
        (Raised e, w1, [EvRequest method url data query_params headers])
    | (Returned r, w1) =>
        match Request_prepare r w1 with
        | (Raised e, w2) =>
            (Raised e, w2,
             [EvRequest method url data query_params headers;
              EvSelf (obj_id self) (CallPrepareRequest r); EvPrepare r])
        | (Returned _, w2) =>
            match f r stream ssl timeout w2 with
            | (o, w3) =>
                (o, w3,
                 [EvRequest method url data query_params headers;
                  EvSelf (obj_id self) (CallPrepareRequest r); EvPrepare r;
                  EvSelf (obj_id self) (CallSend r stream ssl timeout)])
            end
        end
    end.
Proof.
  intros Hprep Hsend. rewrite run_await_request.
  destruct (Request_init method url data query_params headers w) as [[r|e] w1];
    [|done].
  unfold Dispatcher.lookup_prepare_request, Dispatcher.lookup_send.
  rewrite Hprep, Hsend. rewrite run_base_prepare_request.
  destruct (Request_prepare r w1) as [[v|e] w2]; [|done].
  rewrite run_await_async_def. unfold run, opaque.
  by destruct (f r stream ssl timeout w2) as [o w3].
Qed.

(** X2. On a dispatcher class that does not override [send], [request]
    never returns a response: it raises. When the request was built and
    [prepare_request] returned, the exception is [NotImplementedError],
    raised after both took effect. *)
Theorem request_without_send_raises self method url data query_params headers
    stream ssl timeout w :
  o_send (obj_class self) = None →
  let it := run (await (Dispatcher.request self method url data query_params
                          headers stream ssl timeout)) w in
  is_returned it.1.1 = false
  ∧ (∀ r w1 v w2 t2,
       Request_init method url data query_params headers w = (Returned r, w1) →
       run (Dispatcher.lookup_prepare_request self r) w1 = (Returned v, w2, t2) →
       it.1 = (Raised NotImplementedError, w2)).
Proof.
  intros Hsend it. subst it. rewrite run_await_request.
  destruct (Request_init method url data query_params headers w) as [[r|e] w1];
    [|by split].
  destruct (run (Dispatcher.lookup_prepare_request self r) w1)
    as [[[v|e] w2] t2] eqn:Eprep.
  - unfold Dispatcher.lookup_send. rewrite Hsend.
    split; [done|]. intros r' w1' v' w2' t2' ? ?. simplify_eq.
    simpl. congruence.
  - split; [done|]. intros r' w1' v' w2' t2' ? ?. simplify_eq. congruence.
Qed.

(** X4. A dispatcher class that inherits the base [close] is a
    transparent scope: [async with] ends exactly as its suite did, with
    the value the suite returned or the exception it raised, in the
    world the suite left; the call of [close] is all it adds. *)
Theorem scope_with_base_close_is_transparent self suite w :
  o_close (obj_class self) = None →
  run (Dispatcher.async_with self suite) w =
    ((run (suite self) w).1, (run (suite self) w).2 ++ [EvSelf (obj_id self) CallClose]).
Proof.
  intros Hbase. rewrite run_async_with.
  destruct (run (suite self) w) as [[o w1] t1]; simpl.
  unfold Dispatcher.lookup_close. by rewrite Hbase.
Qed.

End DispatcherFurther.

(** X6. Compared with a string, a member of [Protocol] is equal to it
    exactly when looking that string up yields the member; two members
    with equal values are the same member. *)
Theorem Protocol_str_equality_is_lookup :
  (∀ p s, Protocol_eq_str p s = true ↔ Protocol_call s = Returned p)
  ∧ (∀ p q, Protocol_eq_str p (Protocol_value q) = true ↔ p = q).
Proof.
  split.
  - intros p s. unfold Protocol_eq_str. rewrite String.eqb_eq.
    split; [intros <-; apply Protocol_call_value|apply Protocol_call_inv].
  - intros p q. unfold Protocol_eq_str. rewrite String.eqb_eq.
    split; [|by intros ->]. by destruct p, q.
Qed.

(** ** The claims on the test double *)

Section OnTheMock.
Import Mock.




(** A prepared request is sent, and the response of the mock comes
    back. *)
Lemma request_builds_prepares_sends_witness :
  ∃ w',
    run (await (Dispatcher.request mock "GET" "http://a" (DataBytes hello)
                  None None false (Some true) (Some 5))) empty_world =
      (Returned (200, hello), w',
       [EvRequest "GET" "http://a" (DataBytes hello) None None;
        EvSelf 7 (CallPrepareRequest 0); EvPrepare 0;
        EvSelf 7 (CallSend 0 false (Some true) (Some 5))])
    ∧ sent w' = [0]
    ∧ req_prepared <$> heap w' !! 0 = Some true.
Proof.
  eexists. split.
  - eapply (proj2 (proj2 (request_builds_prepares_sends mock "GET" "http://a"
                            (DataBytes hello) None None false (Some true) (Some 5)
                            empty_world))
              0 _ PyNone _ [@EvPrepare models 0] (Returned (200, hello)) _ []);
      reflexivity.
  - split; reflexivity.
Defined.

Lemma scope_enters_self_and_closes_witness :
  run (failing_suite mock) empty_world =
    (Raised ValueError, empty_world,
     [EvRequest "" "http://a" (DataBytes []) None None])
  ∧ ∃ w2,
      run (Dispatcher.async_with mock failing_suite) empty_world =
        (Raised ValueError, w2,
         [EvRequest "" "http://a" (DataBytes []) None None; EvSelf 7 CallClose])
      ∧ closed w2 = true.
Proof.
  split; [reflexivity|].
  destruct (scope_enters_self_and_closes mock failing_suite empty_world
              (Raised ValueError) empty_world
              [@EvRequest models "" "http://a" (DataBytes []) None None] eq_refl)
    as (_ & o' & w2 & t2 & o'' & Hclose & Hwith & Hret & _).
  injection Hclose as <- <- <-.
  exists (mock_close empty_world).2. split; [|reflexivity].
  rewrite Hwith. f_equal. f_equal. by apply (Hret (PyInt 1)).
Defined.

Lemma request_defaults_witness :
  EvSelf 7 (CallSend 0 false None None)
    ∈ (run (await (Dispatcher.call_request mock "GET" "http://a"
                     Dispatcher.no_kwargs)) empty_world).2.
Proof.
  eapply (proj2 (proj2 (proj2 (request_defaults mock "GET" "http://a" empty_world))));
    reflexivity.
Defined.

Lemma base_close_noop_and_exit_never_suppresses_witness :
  run (failing_suite plain) empty_world =
    (Raised ValueError, empty_world,
     [EvRequest "" "http://a" (DataBytes []) None None])
  ∧ run (Dispatcher.async_with plain failing_suite) empty_world =
      (Raised ValueError, empty_world,
       [EvRequest "" "http://a" (DataBytes []) None None; EvSelf 1 CallClose]).
Proof.
  split; [reflexivity|].
  apply (proj2 (proj2 (proj2 (proj2
           (base_close_noop_and_exit_never_suppresses plain))))
           failing_suite empty_world ValueError empty_world
           [@EvRequest models "" "http://a" (DataBytes []) None None]);
    reflexivity.
Defined.


End OnTheMock.

Lemma outstanding_never_exceeds_capacity_witness :
  Gate.new 2 = Returned {| Gate.capacity := 2; Gate.outstanding := 0; Gate.waiters := [] |}
  ∧ Gate.outstanding
      (Gate.exec [Gate.Acquire 1; Gate.Acquire 2; Gate.Acquire 3; Gate.Release;
                  Gate.Timeout 4; Gate.Release; Gate.Release; Gate.Release;
                  Gate.Release]
         {| Gate.capacity := 2; Gate.outstanding := 0; Gate.waiters := [] |}).2 ≤ 2.
Proof.
  split; [reflexivity|].
  apply (outstanding_never_exceeds_capacity 2 _
           [Gate.Acquire 1; Gate.Acquire 2; Gate.Acquire 3; Gate.Release;
            Gate.Timeout 4; Gate.Release; Gate.Release; Gate.Release; Gate.Release]
           9 eq_refl).
Defined.


(** ** The further properties on the test double *)

Section FurtherOnTheMock.
Import Mock.

(** The mock answers 200: its [send] found the request prepared. *)
Lemma send_sees_the_prepared_request_witness :
  (run (await (Dispatcher.request mock "GET" "http://a" (DataBytes hello)
                 None None false None None)) empty_world).1.1 =
    Returned (200, hello).
Proof.
  rewrite (send_sees_the_prepared_request mock mock_send "GET" "http://a"
             (DataBytes hello) None None false None None empty_world
             eq_refl eq_refl).
  reflexivity.
Defined.

(** A plain [Dispatcher()] builds and prepares the request, then
    raises. *)
Lemma request_without_send_raises_witness :
  ∃ w2,
    (run (await (Dispatcher.request plain "GET" "http://a" (DataBytes hello)
                   None None false None None)) empty_world).1 =
      (Raised NotImplementedError, w2)
    ∧ req_prepared <$> heap w2 !! 0 = Some true.
Proof.
  eexists. split.
  - eapply (proj2 (request_without_send_raises plain "GET" "http://a"
                     (DataBytes hello) None None false None None empty_world
                     eq_refl)
              0 _ PyNone _ [@EvPrepare models 0]);
      reflexivity.
  - reflexivity.
Defined.

(** A suite that returns 3 from inside the scope of a plain
    dispatcher. *)
Lemma scope_with_base_close_is_transparent_witness :
  run (Dispatcher.async_with plain (λ _, mret (ReturnStmt (PyInt 3)))) empty_world =
    (Returned (ReturnStmt (PyInt 3)), empty_world, [EvSelf 1 CallClose]).
Proof.
  rewrite (scope_with_base_close_is_transparent plain
             (λ _, mret (ReturnStmt (PyInt 3))) empty_world eq_refl).
  reflexivity.
Defined.

End FurtherOnTheMock.

Lemma Protocol_str_equality_is_lookup_witness :
  Protocol_eq_str HTTP_2 "HTTP/2" = true.
Proof.
  apply (proj1 Protocol_str_equality_is_lookup HTTP_2 "HTTP/2"). reflexivity.
Defined.
